(** * BondForge: the package facade [src/__init__.py]

    The package entry point is a module body of ten statements: a
    docstring, five metadata assignments, three relative from-imports and
    the assignment of [__all__].  This development embeds that body in a
    small model of Python's module loading (module namespaces,
    [sys.modules], submodule loading with the binding the import system
    places on the parent package) and proves the import-surface
    properties of the facade. *)

From stdpp Require Import base option list strings gmap.

Set Warnings "-register-all,-clear-no-such-hyp".

Module BondForge.

(** ** Values and namespaces *)

(** A dotted module name, one component per list element:
    [bondforge.interaction_analyzer] is [["bondforge"; "interaction_analyzer"]]. *)
Abbreviation qualname := (list string).

(** Python values as far as the facade handles them.  Classes and other
    heap objects are references compared by identity ([VObj]); a module
    object is identified by its key in [sys.modules]. *)
Inductive value : Type :=
| VNone
| VStr (s : string)
| VList (items : list value)
| VObj (o : positive)
| VModule (q : qualname).

(** A module's [__dict__]. *)
Abbreviation namespace := (gmap string value).

(** Exceptions.  [CannotImportName] is the [ImportError] a from-import
    raises when the module it loaded has no such attribute; [Exc] stands
    for whatever a module body raises; [NotInSysModules] is the import
    system's error when a loaded module vanished from [sys.modules]. *)
Inductive exn : Type :=
| CannotImportName (name : string) (from : qualname)
| NotInSysModules (q : qualname)
| Exc (cls msg : string).

(** What running a piece of code on a state gives: it returns, it raises,
    or it does not return. *)
Inductive outcome (S A : Type) : Type :=
| Done (a : A) (s : S)
| Raised (e : exn) (s : S)
| Hang.
Arguments Done {S A} a s.
Arguments Raised {S A} e s.
Arguments Hang {S A}.

Definition bind {S A B : Type}
  (m : S → outcome S A) (k : A → S → outcome S B) : S → outcome S B :=
  λ s, match m s with
       | Done a s' => k a s'
       | Raised e s' => Raised e s'
       | Hang => Hang
       end.

Definition ret {S A : Type} (a : A) : S → outcome S A := λ s, Done a s.

(** The state a run leaves, when it returns or raises. *)
Definition final {S A : Type} (o : outcome S A) : option S :=
  match o with
  | Done _ s => Some s
  | Raised _ s => Some s
  | Hang => None
  end.

Notation "'let*' x := m 'in' k" := (bind m (λ x, k))
  (at level 10, x name, m at level 100, k at level 200, only parsing).

(** ** The source, as an abstract syntax tree *)

Inductive expr : Type :=
| EStr (s : string)
| EList (es : list expr).

Fixpoint eval (e : expr) : value :=
  match e with
  | EStr s => VStr s
  | EList es => VList (List.map eval es)
  end.

(** The three statement forms the file uses.  [SFromImport m n] is
    [from .m import n], a relative import of level one. *)
Inductive stmt : Type :=
| SDocstring (text : string)
| SAssign (target : string) (e : expr)
| SFromImport (module name : string).

Definition docstring : string :=
"
BondForge - Forging Insights from Chemical Bonds

A comprehensive toolkit for analyzing 20 types of chemical interactions
in protein structures.

Modules:
    interaction_analyzer: Core analyzer with 7 interaction types
    extended_interaction_analyzer: Extended analyzer with 20 interaction types
    interaction_visualizer: Visualization and plotting tools
".

(** Lines 13 to 17. *)
Definition metadata : list (string * string) :=
  [ ("__version__", "1.0.0");
    ("__author__", "Ayeh Bolouki");
    ("__email__", "ayehbolouki1988@gmail.com");
    ("__package_name__", "BondForge");
    ("__tagline__", "Forging Insights from Chemical Bonds") ].

(** Lines 19 to 21: the submodule and the name imported from it. *)
Definition imports : list (string * string) :=
  [ ("interaction_analyzer", "ProteinInteractionAnalyzer");
    ("extended_interaction_analyzer", "ExtendedProteinInteractionAnalyzer");
    ("interaction_visualizer", "InteractionVisualizer") ].

(** Lines 23 to 27. *)
Definition all_names : list string :=
  [ "ProteinInteractionAnalyzer";
    "ExtendedProteinInteractionAnalyzer";
    "InteractionVisualizer" ].

Definition metadata_stmts : list stmt :=
  (λ kv, SAssign kv.1 (EStr kv.2)) <$> metadata.

Definition import_stmts : list stmt :=
  (λ mn, SFromImport mn.1 mn.2) <$> imports.

Definition all_stmt : stmt := SAssign "__all__" (EList (EStr <$> all_names)).

(** The module body, in source order. *)
Definition body : list stmt :=
  SDocstring docstring :: metadata_stmts ++ import_stmts ++ [all_stmt].

Definition metadata_names : list string := fst <$> metadata.
Definition class_names : list string := snd <$> imports.
Definition submodule_names : list string := fst <$> imports.


(** Every attribute of the package that running a statement may write:
    besides [binds], the docstring attribute and the submodule attribute
    the import system sets on the parent package. *)
Definition writes (s : stmt) : list string :=
  match s with
  | SDocstring _ => ["__doc__"]
  | SAssign t _ => [t]
  | SFromImport m n => [m; n]
  end.

(** The submodules a statement may load. *)
Definition loads (s : stmt) : list string :=
  match s with
  | SFromImport m _ => [m]
  | _ => []
  end.

(** ** The process and the import system *)

(** [sys_modules] is the module cache; [world] is everything else in the
    process (files, descriptors, other objects), which only module bodies
    other than the facade can touch. *)
Record process (W : Type) : Type := Process {
  sys_modules : gmap qualname namespace;
  world : W
}.
Arguments Process {W} _ _.
Arguments sys_modules {W} _.
Arguments world {W} _.

Definition getattr {W} (q : qualname) (name : string) (p : process W) : option value :=
  sys_modules p !! q ≫= (.!! name).

Definition setattr {W} (q : qualname) (name : string) (v : value)
  (p : process W) : process W :=
  Process (alter (insert name v) q (sys_modules p)) (world p).

Section ImportSystem.
Context {W : Type}.

(** Finding and running the body of a collaborator module, a parameter
    since the three collaborators are not among the sources: [None] when
    the body does not return, otherwise the exception it raised or the
    namespace it built, and the world it left. *)
Variable collab : qualname → W → option ((exn + namespace) * W).

(** The module object the import system creates before running a body,
    with its import-related attributes. *)
Variable new_module : qualname → namespace.

(** Import of the submodule [child] of [parent]: the cached module when
    there is one; else the module is found and run, registered in
    [sys.modules] and bound as an attribute on its parent. A failed load
    leaves no entry. *)
Definition find_and_load (parent : qualname) (child : string)
  : process W → outcome (process W) namespace :=
  λ p,
  let q := parent ++ [child] in
  match sys_modules p !! q with
  | Some m => Done m p
  | None =>
    match collab q (world p) with
    | None => Hang
    | Some (inl e, w) => Raised e (Process (sys_modules p) w)
    | Some (inr m, w) =>
      Done m (setattr parent child (VModule q)
                (Process (<[q := m]> (sys_modules p)) w))
    end
  end.

(** The attribute lookup of a from-import. *)
Definition import_from (q : qualname) (name : string) (m : namespace)
  : process W → outcome (process W) value :=
  λ p,
  match m !! name with
  | Some v => Done v p
  | None => Raised (CannotImportName name q) p
  end.

(** One statement of the body of package [pkg]; the globals of the frame
    are the package's module dictionary. *)
Definition exec_stmt (pkg : qualname) (s : stmt)
  : process W → outcome (process W) unit :=
  match s with
  | SDocstring d => λ p, Done tt (setattr pkg "__doc__" (VStr d) p)
  | SAssign t e => λ p, Done tt (setattr pkg t (eval e) p)
  | SFromImport child name =>
    let* m := find_and_load pkg child in
    let* v := import_from (pkg ++ [child]) name m in
    λ p, Done tt (setattr pkg name v p)
  end.

Fixpoint exec_body (pkg : qualname) (ss : list stmt)
  : process W → outcome (process W) unit :=
  match ss with
  | [] => ret tt
  | s :: ss' => let* _u := exec_stmt pkg s in exec_body pkg ss'
  end.

(** The state in which the body starts: the new module is in
    [sys.modules] already. *)
Definition enter (pkg : qualname) (p : process W) : process W :=
  Process (<[pkg := new_module pkg]> (sys_modules p)) (world p).

Definition run_body (pkg : qualname) : process W → outcome (process W) unit :=
  λ p, exec_body pkg body (enter pkg p).

(** Loading the package: run the body; on an exception the package is
    removed from [sys.modules] again and the exception goes on. *)
Definition load_package (pkg : qualname)
  : process W → outcome (process W) namespace :=
  λ p,
  match run_body pkg p with
  | Done _ p' =>
    match sys_modules p' !! pkg with
    | Some ns => Done ns p'
    | None => Raised (NotInSysModules pkg) p'
    end
  | Raised e p' => Raised e (Process (delete pkg (sys_modules p')) (world p'))
  | Hang => Hang
  end.

(** [import pkg]: the cached module, or a load. *)
Definition import_package (pkg : qualname)
  : process W → outcome (process W) namespace :=
  λ p,
  match sys_modules p !! pkg with
  | Some ns => Done ns p
  | None => load_package pkg p
  end.






End ImportSystem.

(** [frame pkg ws ls p p']: from [p] to [p'] the package stays loaded,
    its attributes outside [ws] keep their value, the modules other than
    the package and its submodules [ls] are the same, and no module that
    was loaded is replaced. *)
Definition frame {W} (pkg : qualname) (ws ls : list string)
  (p p' : process W) : Prop :=
  (is_Some (sys_modules p !! pkg) → is_Some (sys_modules p' !! pkg)) ∧
  (∀ n, n ∉ ws → getattr pkg n p' = getattr pkg n p) ∧
  (∀ q, q ≠ pkg → (∀ c, c ∈ ls → q ≠ pkg ++ [c]) →
        sys_modules p' !! q = sys_modules p !! q) ∧
  (∀ q m, q ≠ pkg → sys_modules p !! q = Some m → sys_modules p' !! q = Some m).

(** [from pkg import *]: the bindings it brings into the importer.  With
    [__all__] defined these are the names it lists (a missing one raises
    [AttributeError]); without, the public names. *)
Definition is_public (name : string) : bool :=
  match name with
  | String c _ => negb (Ascii.eqb c (Ascii.ascii_of_nat 95))
  | EmptyString => true
  end.

Definition star_names (ns : namespace) : option (list string) :=
  match ns !! "__all__" with
  | Some (VList items) =>
    mapM (λ v, match v with VStr n => Some n | _ => None end) items
  | Some _ => None
  | None => Some (filter (λ n, is_public n = true) (elements (dom ns)))
  end.

Definition star_import (ns : namespace) : option namespace :=
  names ← star_names ns;
  vals ← mapM (λ n, ns !! n) names;
  Some (list_to_map (zip names vals)).


(** ** A concrete process to run the model on *)

Definition demo_pkg : qualname := ["bondforge"].

(** The public names of the three collaborator modules, with the class
    objects at three distinct addresses. *)
Definition demo_module (c : string) : option namespace :=
  match c with
  | "interaction_analyzer" =>
      Some {[ "ProteinInteractionAnalyzer" := VObj 1 ]}
  | "extended_interaction_analyzer" =>
      Some {[ "ExtendedProteinInteractionAnalyzer" := VObj 2 ]}
  | "interaction_visualizer" =>
      Some {[ "InteractionVisualizer" := VObj 3 ]}
  | _ => None
  end.

(** The collaborators found on disk; running a body logs the module name
    in the world.  [broken] names a module whose body raises. *)
Definition demo_collab (broken : option string) (q : qualname) (w : list string)
  : option ((exn + namespace) * list string) :=
  match last q with
  | Some c =>
    if bool_decide (broken = Some c)
    then Some (inl (Exc "RuntimeError" c), w ++ [c])
    else match demo_module c with
         | Some m => Some (inr m, w ++ [c])
         | None => Some (inl (Exc "ModuleNotFoundError" c), w)
         end
  | None => Some (inl (Exc "ModuleNotFoundError" ""), w)
  end.

Definition demo_new_module (q : qualname) : namespace :=
  {[ "__name__" := VStr (String.concat "." q);
     "__package__" := VStr (String.concat "." q);
     "__doc__" := VNone ]}.

Definition demo_process : process (list string) := Process ∅ [].

(** The package namespace the load builds in [demo_process], binding by
    binding in the order of the body. *)
Definition demo_metadata_bound : namespace :=
  <["__tagline__" := VStr "Forging Insights from Chemical Bonds"]>
  (<["__package_name__" := VStr "BondForge"]>
  (<["__email__" := VStr "ayehbolouki1988@gmail.com"]>
  (<["__author__" := VStr "Ayeh Bolouki"]>
  (<["__version__" := VStr "1.0.0"]>
  (<["__doc__" := VStr docstring]> (demo_new_module demo_pkg)))))).

Definition demo_first_bound : namespace :=
  <["ProteinInteractionAnalyzer" := VObj 1]>
  (<["interaction_analyzer" := VModule ["bondforge"; "interaction_analyzer"]]>
   demo_metadata_bound).

Definition demo_loaded : namespace :=
  <["__all__" := VList [VStr "ProteinInteractionAnalyzer";
                        VStr "ExtendedProteinInteractionAnalyzer";
                        VStr "InteractionVisualizer"]]>
  (<["InteractionVisualizer" := VObj 3]>
  (<["interaction_visualizer" := VModule ["bondforge"; "interaction_visualizer"]]>
  (<["ExtendedProteinInteractionAnalyzer" := VObj 2]>
  (<["extended_interaction_analyzer" :=
       VModule ["bondforge"; "extended_interaction_analyzer"]]>
   demo_first_bound)))).

(** The process after that load. *)
Definition demo_after : process (list string) :=
  Process
    {[ ["bondforge"] := demo_loaded;
       ["bondforge"; "interaction_analyzer"] :=
         {[ "ProteinInteractionAnalyzer" := VObj 1 ]};
       ["bondforge"; "extended_interaction_analyzer"] :=
         {[ "ExtendedProteinInteractionAnalyzer" := VObj 2 ]};
       ["bondforge"; "interaction_visualizer"] :=
         {[ "InteractionVisualizer" := VObj 3 ]} ]}
    ["interaction_analyzer"; "extended_interaction_analyzer";
     "interaction_visualizer"].

(** The process in which the body stops when the second collaborator
    raises: the package is still in [sys.modules], half built. *)
Definition demo_failed : process (list string) :=
  Process
    {[ ["bondforge"] := demo_first_bound;
       ["bondforge"; "interaction_analyzer"] :=
         {[ "ProteinInteractionAnalyzer" := VObj 1 ]} ]}
    ["interaction_analyzer"; "extended_interaction_analyzer"].



(** ** Module names *)

Lemma qual_ne_parent (pkg : qualname) (c : string) : pkg ++ [c] ≠ pkg.
Proof.
  intros H. apply (f_equal length) in H.
  rewrite length_app in H. simpl in H. lia.
Qed.


(** ** Attributes *)

Section Attributes.
Context {W : Type}.
Implicit Types (p : process W) (q : qualname) (n : string) (v : value).

Lemma world_setattr q n v p : world (setattr q n v p) = world p.
Proof. reflexivity. Qed.

Lemma modules_setattr_ne q q' n v p :
  q ≠ q' → sys_modules (setattr q' n v p) !! q = sys_modules p !! q.
Proof. intros Hq. unfold setattr; simpl. by rewrite lookup_alter_ne. Qed.

Lemma modules_setattr_eq q n v p :
  sys_modules (setattr q n v p) !! q = <[n := v]> <$> sys_modules p !! q.
Proof. unfold setattr; simpl. by rewrite lookup_alter_eq. Qed.

Lemma loaded_setattr q q' n v p :
  is_Some (sys_modules (setattr q' n v p) !! q) ↔ is_Some (sys_modules p !! q).
Proof.
  destruct (decide (q = q')) as [->|Hq].
  - rewrite modules_setattr_eq. apply fmap_is_Some.
  - by rewrite modules_setattr_ne.
Qed.

Lemma getattr_setattr_eq q n v p :
  is_Some (sys_modules p !! q) → getattr q n (setattr q n v p) = Some v.
Proof.
  intros [m Hm]. unfold getattr. rewrite modules_setattr_eq, Hm. simpl.
  apply lookup_insert_eq.
Qed.

Lemma getattr_setattr_ne q n n' v p :
  n ≠ n' → getattr q n (setattr q n' v p) = getattr q n p.
Proof.
  intros Hn. unfold getattr. rewrite modules_setattr_eq.
  destruct (sys_modules p !! q) as [m|]; simpl; [|done].
  by rewrite lookup_insert_ne.
Qed.

Lemma getattr_setattr_other q q' n n' v p :
  q ≠ q' → getattr q n (setattr q' n' v p) = getattr q n p.
Proof. intros Hq. unfold getattr. by rewrite modules_setattr_ne. Qed.

Lemma getattr_lookup q n p m :
  sys_modules p !! q = Some m → getattr q n p = m !! n.
Proof. intros Hm. unfold getattr. by rewrite Hm. Qed.

End Attributes.

(** ** Frames *)

Section Frames.
Context {W : Type}.
Implicit Types (p : process W) (q pkg : qualname) (n : string).

Lemma frame_refl pkg ws ls p : frame pkg ws ls p p.
Proof. by repeat split. Qed.

Lemma frame_trans pkg ws1 ws2 ls1 ls2 p1 p2 p3 :
  frame pkg ws1 ls1 p1 p2 → frame pkg ws2 ls2 p2 p3 →
  frame pkg (ws1 ++ ws2) (ls1 ++ ls2) p1 p3.
Proof.
  intros (Ha & Hb & Hc & Hd) (Ha' & Hb' & Hc' & Hd'). repeat split.
  - auto.
  - intros n Hn. rewrite not_elem_of_app in Hn. destruct Hn.
    rewrite Hb' by done. auto.
  - intros q Hq Hls. rewrite Hc', Hc; try done.
    + intros c Hin. apply Hls, elem_of_app. by left.
    + intros c Hin. apply Hls, elem_of_app. by right.
  - eauto.
Qed.

Lemma frame_weaken pkg ws ws' ls ls' p p' :
  ws ⊆ ws' → ls ⊆ ls' → frame pkg ws ls p p' → frame pkg ws' ls' p p'.
Proof.
  intros Hws Hls (Ha & Hb & Hc & Hd). repeat split; [done| |auto|done].
  intros n Hn. apply Hb. intros Hin. by apply Hn, Hws.
Qed.

Lemma frame_setattr pkg n v p : frame pkg [n] [] p (setattr pkg n v p).
Proof.
  repeat split.
  - intros H. by apply loaded_setattr.
  - intros n' Hn'. apply getattr_setattr_ne. set_solver.
  - intros q Hq _. by apply modules_setattr_ne.
  - intros q m Hq Hm. by rewrite modules_setattr_ne.
Qed.

End Frames.

(** ** The import system *)

Section Semantics.
Context {W : Type}.
Variable collab : qualname → W → option ((exn + namespace) * W).
Implicit Types (p : process W) (q pkg : qualname) (n c : string) (s : stmt).

Lemma find_and_load_frame pkg c p p' :
  final (find_and_load collab pkg c p) = Some p' → frame pkg [c] [c] p p'.
Proof.
  unfold find_and_load.
  destruct (sys_modules p !! (pkg ++ [c])) as [m|] eqn:Hc; simpl.
  { intros [= <-]. apply frame_refl. }
  destruct (collab (pkg ++ [c]) (world p)) as [[[e|m] w]|]; simpl;
    intros [= <-].
  - by repeat split.
  - repeat split.
    + intros H. apply loaded_setattr. simpl.
      rewrite lookup_insert_ne; [done|apply qual_ne_parent].
    + intros n Hn. rewrite getattr_setattr_ne by set_solver.
      unfold getattr; simpl.
      rewrite lookup_insert_ne; [done|apply qual_ne_parent].
    + intros q Hq Hls. rewrite modules_setattr_ne by done. simpl.
      rewrite lookup_insert_ne; [done|]. intros <-. eapply Hls; [|done]. set_solver.
    + intros q m' Hq Hm. rewrite modules_setattr_ne by done. simpl.
      rewrite lookup_insert_ne; [done|]. intros <-. congruence.
Qed.

Lemma find_and_load_done pkg c p m p' :
  find_and_load collab pkg c p = Done m p' →
  sys_modules p' !! (pkg ++ [c]) = Some m.
Proof.
  unfold find_and_load.
  destruct (sys_modules p !! (pkg ++ [c])) as [m0|] eqn:Hc.
  { by intros [= <- <-]. }
  destruct (collab (pkg ++ [c]) (world p)) as [[[e|m1] w]|]; intros [= <- <-].
  rewrite modules_setattr_ne by apply qual_ne_parent. simpl.
  apply lookup_insert_eq.
Qed.




End Semantics.

(** ** Statements and bodies *)

Section Execution.
Context {W : Type}.
Variable collab : qualname → W → option ((exn + namespace) * W).
Implicit Types (p : process W) (q pkg : qualname) (n c : string) (s : stmt).

Lemma exec_stmt_frame pkg s p p' :
  final (exec_stmt collab pkg s p) = Some p' →
  frame pkg (writes s) (loads s) p p'.
Proof.
  destruct s as [d|t e|c n]; simpl.
  - intros [= <-]. apply frame_setattr.
  - intros [= <-]. apply frame_setattr.
  - unfold bind, import_from.
    destruct (find_and_load collab pkg c p) as [m p1|e p1|] eqn:Hfl; [| |done].
    + assert (frame pkg [c] [c] p p1) as Hf
        by (apply (find_and_load_frame collab); by rewrite Hfl).
      destruct (m !! n) as [v|]; simpl; intros [= <-].
      * apply (frame_trans _ [c] [n] [c] []) with p1; [done|apply frame_setattr].
      * eapply frame_weaken; [| |done]; set_solver.
    + simpl. intros [= <-].
      eapply frame_weaken; [| |apply (find_and_load_frame collab); by rewrite Hfl];
        set_solver.
Qed.

Lemma exec_body_app pkg ss1 ss2 p :
  exec_body collab pkg (ss1 ++ ss2) p =
  match exec_body collab pkg ss1 p with
  | Done _ p1 => exec_body collab pkg ss2 p1
  | Raised e p1 => Raised e p1
  | Hang => Hang
  end.
Proof.
  revert p. induction ss1 as [|s ss1 IH]; intros p; simpl; [done|].
  unfold bind. destruct (exec_stmt collab pkg s p); [apply IH|done|done].
Qed.

Lemma exec_body_frame pkg ss p p' :
  final (exec_body collab pkg ss p) = Some p' →
  frame pkg (ss ≫= writes) (ss ≫= loads) p p'.
Proof.
  revert p. induction ss as [|s ss IH]; intros p; simpl.
  { intros [= <-]. apply frame_refl. }
  unfold bind.
  destruct (exec_stmt collab pkg s p) as [[] p1|e p1|] eqn:Hs; [| |done].
  - intros Hrest. eapply frame_trans; [|by apply IH].
    apply exec_stmt_frame. by rewrite Hs.
  - simpl. intros [= <-].
    eapply frame_weaken; [| |apply exec_stmt_frame; by rewrite Hs];
      set_solver.
Qed.

(** A binding made once stays as long as no later statement writes the
    name. *)
Lemma exec_body_persist pkg ss p p' n :
  n ∉ ss ≫= writes →
  final (exec_body collab pkg ss p) = Some p' →
  getattr pkg n p' = getattr pkg n p.
Proof.
  intros Hn Hfin. apply exec_body_frame in Hfin as (_ & Hattr & _). auto.
Qed.

Lemma exec_assign pkg t e p :
  exec_stmt collab pkg (SAssign t e) p = Done tt (setattr pkg t (eval e) p).
Proof. reflexivity. Qed.

(** A from-import that returns has bound the name to the very value the
    submodule holds under it. *)
Lemma exec_import_done pkg c n p p' :
  is_Some (sys_modules p !! pkg) →
  exec_stmt collab pkg (SFromImport c n) p = Done tt p' →
  ∃ m v, sys_modules p' !! (pkg ++ [c]) = Some m ∧ m !! n = Some v ∧
         getattr pkg n p' = Some v.
Proof.
  intros Hpkg. simpl. unfold bind, import_from.
  destruct (find_and_load collab pkg c p) as [m p1|e p1|] eqn:Hfl; [|done|done].
  destruct (m !! n) as [v|] eqn:Hn; [|done]. intros [= <-].
  exists m, v. split_and!; [|done|].
  - rewrite modules_setattr_ne by apply qual_ne_parent.
    by eapply find_and_load_done.
  - apply getattr_setattr_eq.
    eapply (find_and_load_frame collab); [by rewrite Hfl|done].
Qed.








End Execution.

(** ** The body of the facade *)

Section Facade.
Context {W : Type}.
Variable collab : qualname → W → option ((exn + namespace) * W).
Variable new_module : qualname → namespace.
Implicit Types (p : process W) (q pkg : qualname) (n c : string) (s : stmt).

Local Ltac decide_now := apply (bool_decide_unpack _); vm_compute; exact I.

Lemma body_split :
  body = (SDocstring docstring :: metadata_stmts) ++ import_stmts ++ [all_stmt].
Proof. reflexivity. Qed.


Lemma enter_loaded pkg p :
  sys_modules (enter new_module pkg p) !! pkg = Some (new_module pkg).
Proof. unfold enter; simpl. apply lookup_insert_eq. Qed.


Lemma exec_body_cons pkg s ss p :
  exec_body collab pkg (s :: ss) p =
  match exec_stmt collab pkg s p with
  | Done _ p1 => exec_body collab pkg ss p1
  | Raised e p1 => Raised e p1
  | Hang => Hang
  end.
Proof. reflexivity. Qed.

Lemma exec_body_cons_done pkg s ss p p' :
  exec_body collab pkg (s :: ss) p = Done tt p' →
  ∃ p1, exec_stmt collab pkg s p = Done tt p1 ∧
        exec_body collab pkg ss p1 = Done tt p'.
Proof.
  simpl. unfold bind.
  destruct (exec_stmt collab pkg s p) as [[] p1|e p1|]; [|done|done].
  intros H. by exists p1.
Qed.


(** The docstring and the metadata assignments always run through, and
    bind each name to its literal. *)
Lemma preamble_done pkg p :
  is_Some (sys_modules p !! pkg) →
  ∃ p1, exec_body collab pkg (SDocstring docstring :: metadata_stmts) p = Done tt p1 ∧
    frame pkg ("__doc__" :: metadata_names) [] p p1 ∧
    world p1 = world p ∧
    getattr pkg "__doc__" p1 = Some (VStr docstring) ∧
    ∀ n lit, (n, lit) ∈ metadata → getattr pkg n p1 = Some (VStr lit).
Proof.
  intros Hpkg. eexists. split; [reflexivity|]. split_and!.
  - change ("__doc__" :: metadata_names)
      with ((SDocstring docstring :: metadata_stmts) ≫= writes).
    change (@nil string)
      with ((SDocstring docstring :: metadata_stmts) ≫= loads).
    by apply (exec_body_frame collab).
  - done.
  - rewrite !getattr_setattr_ne by done. by apply getattr_setattr_eq.
  - intros n lit Hin. unfold metadata in Hin.
    repeat (apply elem_of_cons in Hin as [[= -> ->]|Hin]);
      [..|by apply elem_of_nil in Hin];
      rewrite ?getattr_setattr_ne by done;
      apply getattr_setattr_eq; by rewrite !loaded_setattr.
Qed.

(** Whatever happens after the preamble, the metadata stay. *)
Lemma metadata_bound pkg p p' :
  final (run_body collab new_module pkg p) = Some p' →
  ∀ n lit, (n, lit) ∈ metadata → getattr pkg n p' = Some (VStr lit).
Proof.
  unfold run_body. rewrite body_split, exec_body_app.
  destruct (preamble_done pkg (enter new_module pkg p))
    as (p1 & -> & _ & _ & _ & Hmeta); [by rewrite enter_loaded|].
  intros Hfin n lit Hin.
  rewrite (exec_body_persist collab pkg (import_stmts ++ [all_stmt]) p1 p' n);
    [by apply Hmeta| |done].
  unfold metadata in Hin.
  repeat (apply elem_of_cons in Hin as [[= -> ->]|Hin]);
    first [by apply elem_of_nil in Hin | decide_now].
Qed.

(** A from-import that ran keeps its binding, and the root binding is the
    submodule's, as long as the statements after it write neither. *)
Lemma import_bound_persists pkg c n post p1 p2 p' :
  is_Some (sys_modules p1 !! pkg) →
  n ∉ post ≫= writes →
  exec_stmt collab pkg (SFromImport c n) p1 = Done tt p2 →
  final (exec_body collab pkg post p2) = Some p' →
  is_Some (getattr pkg n p') ∧ getattr pkg n p' = getattr (pkg ++ [c]) n p'.
Proof.
  intros Hpkg Hn (m & v & Hm & Hv & Hroot)%exec_import_done Hpost; [|done].
  apply exec_body_frame in Hpost as (_ & Hattr & _ & Hkeep).
  rewrite Hattr, Hroot by done. split; [done|].
  erewrite (getattr_lookup (pkg ++ [c])); [done|].
  apply Hkeep; [apply qual_ne_parent|done].
Qed.


Lemma load_package_done pkg p ns p' :
  load_package collab new_module pkg p = Done ns p' →
  run_body collab new_module pkg p = Done tt p' ∧
  sys_modules p' !! pkg = Some ns.
Proof.
  unfold load_package.
  destruct (run_body collab new_module pkg p) as [[] p1|e p1|]; [|done|done].
  destruct (sys_modules p1 !! pkg) as [ns1|] eqn:Hns; [|done].
  by intros [= <- <-].
Qed.


(** The four steps of a run that returned: the three imports, then
    [__all__]. *)
Lemma run_body_done_inv pkg p p' :
  run_body collab new_module pkg p = Done tt p' →
  ∃ p1 p2 p3 p4,
    exec_body collab pkg (SDocstring docstring :: metadata_stmts)
      (enter new_module pkg p) = Done tt p1 ∧
    is_Some (sys_modules p1 !! pkg) ∧
    exec_stmt collab pkg
      (SFromImport "interaction_analyzer" "ProteinInteractionAnalyzer") p1
      = Done tt p2 ∧
    exec_stmt collab pkg
      (SFromImport "extended_interaction_analyzer" "ExtendedProteinInteractionAnalyzer") p2
      = Done tt p3 ∧
    exec_stmt collab pkg
      (SFromImport "interaction_visualizer" "InteractionVisualizer") p3
      = Done tt p4 ∧
    is_Some (sys_modules p4 !! pkg) ∧
    p' = setattr pkg "__all__" (VList (VStr <$> all_names)) p4.
Proof.
  unfold run_body. rewrite body_split, exec_body_app.
  destruct (preamble_done pkg (enter new_module pkg p))
    as (p1 & Hpre & (Hpkg1 & _) & _); [by rewrite enter_loaded|].
  rewrite Hpre. change (import_stmts ++ [all_stmt]) with
    [SFromImport "interaction_analyzer" "ProteinInteractionAnalyzer";
     SFromImport "extended_interaction_analyzer" "ExtendedProteinInteractionAnalyzer";
     SFromImport "interaction_visualizer" "InteractionVisualizer";
     all_stmt].
  intros (p2 & H1 & (p3 & H2 & (p4 & H3 & H4)%exec_body_cons_done)
            %exec_body_cons_done)%exec_body_cons_done.
  exists p1, p2, p3, p4. split_and!; try done.
  - apply Hpkg1. by rewrite enter_loaded.
  - pose proof (exec_stmt_frame collab pkg _ p1 p2 ltac:(by rewrite H1)) as (Ha & _).
    pose proof (exec_stmt_frame collab pkg _ p2 p3 ltac:(by rewrite H2)) as (Hb & _).
    pose proof (exec_stmt_frame collab pkg _ p3 p4 ltac:(by rewrite H3)) as (Hc & _).
    apply Hc, Hb, Ha, Hpkg1. by rewrite enter_loaded.
  - simpl in H4. by injection H4.
Qed.

(** After a run that returned, each class name is bound at the root to
    what its submodule holds. *)
Lemma classes_bound pkg p p' :
  run_body collab new_module pkg p = Done tt p' →
  ∀ c n, (c, n) ∈ imports →
    is_Some (getattr pkg n p') ∧ getattr pkg n p' = getattr (pkg ++ [c]) n p'.
Proof.
  intros Hrun c n Hin.
  pose proof Hrun as (p1 & p2 & p3 & p4 & _ & Hpkg1 & H1 & H2 & H3 & _ & ->)
    %run_body_done_inv.
  pose proof (exec_stmt_frame collab pkg _ p1 p2 ltac:(by rewrite H1)) as (Ha & _).
  pose proof (exec_stmt_frame collab pkg _ p2 p3 ltac:(by rewrite H2)) as (Hb & _).
  unfold imports in Hin.
  repeat (apply elem_of_cons in Hin as [[= -> ->]|Hin]);
    [..|by apply elem_of_nil in Hin].
  - eapply (import_bound_persists pkg _ _
      [SFromImport "extended_interaction_analyzer" "ExtendedProteinInteractionAnalyzer";
       SFromImport "interaction_visualizer" "InteractionVisualizer"; all_stmt]
      p1 p2); [done|decide_now|done|].
    by rewrite !exec_body_cons, H2, exec_body_cons, H3.
  - eapply (import_bound_persists pkg _ _
      [SFromImport "interaction_visualizer" "InteractionVisualizer"; all_stmt]
      p2 p3); [by apply Ha|decide_now|done|].
    by rewrite exec_body_cons, H3.
  - eapply (import_bound_persists pkg _ _ [all_stmt] p3 p4);
      [by apply Hb, Ha|decide_now|done|done].
Qed.

Lemma all_bound pkg p p' :
  run_body collab new_module pkg p = Done tt p' →
  getattr pkg "__all__" p' = Some (VList (VStr <$> all_names)).
Proof.
  intros (p1 & p2 & p3 & p4 & _ & _ & _ & _ & _ & Hpkg & ->)%run_body_done_inv.
  by apply getattr_setattr_eq.
Qed.

Lemma doc_bound pkg p p' :
  final (run_body collab new_module pkg p) = Some p' →
  getattr pkg "__doc__" p' = Some (VStr docstring).
Proof.
  unfold run_body. rewrite body_split, exec_body_app.
  destruct (preamble_done pkg (enter new_module pkg p))
    as (p1 & -> & _ & _ & Hdoc & _); [by rewrite enter_loaded|].
  intros Hfin.
  rewrite (exec_body_persist collab pkg (import_stmts ++ [all_stmt]) p1 p');
    [done|decide_now|done].
Qed.




(** *** Loading the collaborators alone, compared with the facade *)








(** ** The claims *)

(** C1. After a successful load the version constant is the string
    ["1.0.0"] and the package-name constant the string ["BondForge"];
    both are static: in the whole body the only statement that writes
    either name is its own assignment of that literal. *)
Theorem metadata_constants_literal pkg p ns p' :
  load_package collab new_module pkg p = Done ns p' →
  ns !! "__version__" = Some (VStr "1.0.0") ∧
  ns !! "__package_name__" = Some (VStr "BondForge") ∧
  filter (λ s, "__version__" ∈ writes s) body
    = [SAssign "__version__" (EStr "1.0.0")] ∧
  filter (λ s, "__package_name__" ∈ writes s) body
    = [SAssign "__package_name__" (EStr "BondForge")].
Proof.
  intros [Hrun Hns]%load_package_done.
  assert (final (run_body collab new_module pkg p) = Some p') as Hfin
    by (by rewrite Hrun).
  pose proof (metadata_bound pkg p p' Hfin) as Hmeta.
  split_and!.
  - rewrite <- (getattr_lookup pkg _ p' ns Hns). apply Hmeta. decide_now.
  - rewrite <- (getattr_lookup pkg _ p' ns Hns). apply Hmeta. decide_now.
  - by vm_compute.
  - by vm_compute.
Qed.

Lemma class_names_bound pkg p ns p' :
  load_package collab new_module pkg p = Done ns p' →
  ∀ c n, (c, n) ∈ imports → is_Some (ns !! n).
Proof.
  intros [Hrun Hns]%load_package_done c n Hin.
  destruct (classes_bound pkg p p' Hrun c n Hin) as [Hsome _].
  by rewrite (getattr_lookup pkg n p' ns Hns) in Hsome.
Qed.

(** C3. After a successful load, each of the three exported names is
    bound at the package root, and importing it from the root gives the
    same object as importing it from its defining submodule. *)
Theorem root_binding_is_submodule_binding pkg p ns p' :
  load_package collab new_module pkg p = Done ns p' →
  ∀ c n, (c, n) ∈ imports →
    is_Some (ns !! n) ∧
    getattr pkg n p' = ns !! n ∧
    getattr (pkg ++ [c]) n p' = ns !! n.
Proof.
  intros [Hrun Hns]%load_package_done c n Hin.
  destruct (classes_bound pkg p p' Hrun c n Hin) as [Hsome Heq].
  rewrite <- Heq, (getattr_lookup pkg n p' ns Hns) in *. done.
Qed.

(** C10. After a successful load [__all__] is the list of the three
    class names, without duplicates, each bound in the package; a star
    import brings in exactly those three bindings and none of the five
    metadata constants. *)
Theorem all_is_the_three_classes pkg p ns p' :
  load_package collab new_module pkg p = Done ns p' →
  ns !! "__all__" =
    Some (VList [VStr "ProteinInteractionAnalyzer";
                 VStr "ExtendedProteinInteractionAnalyzer";
                 VStr "InteractionVisualizer"]) ∧
  star_names ns = Some class_names ∧
  NoDup all_names ∧
  (∀ n, n ∈ all_names → is_Some (ns !! n)) ∧
  ∃ star, star_import ns = Some star ∧
    (∀ n, n ∈ class_names → is_Some (star !! n) ∧ star !! n = ns !! n) ∧
    (∀ n, n ∉ class_names → star !! n = None) ∧
    (∀ n, n ∈ metadata_names → star !! n = None).
Proof.
  intros Hload. pose proof Hload as [Hrun Hns]%load_package_done.
  pose proof (all_bound pkg p p' Hrun) as Hall.
  rewrite (getattr_lookup pkg _ p' ns Hns) in Hall.
  pose proof (class_names_bound pkg p ns p' Hload) as Hcls.
  destruct (Hcls "interaction_analyzer" "ProteinInteractionAnalyzer")
    as [v1 H1]; [decide_now|].
  destruct (Hcls "extended_interaction_analyzer" "ExtendedProteinInteractionAnalyzer")
    as [v2 H2]; [decide_now|].
  destruct (Hcls "interaction_visualizer" "InteractionVisualizer")
    as [v3 H3]; [decide_now|].
  assert (star_names ns = Some class_names) as Hnames
    by (unfold star_names; by rewrite Hall).
  split_and!; [done|done|decide_now| |].
  - intros n Hn. unfold all_names in Hn.
    repeat (apply elem_of_cons in Hn as [->|Hn]); [by eauto..|].
    by apply elem_of_nil in Hn.
  - unfold star_import. rewrite Hnames. simpl. rewrite H1, H2, H3. simpl.
    eexists. split; [reflexivity|]. split_and!.
    + intros n Hn. unfold class_names, imports in Hn. simpl in Hn.
      repeat (apply elem_of_cons in Hn as [->|Hn]);
        [..|by apply elem_of_nil in Hn].
      * rewrite lookup_insert_eq, H1. eauto.
      * rewrite lookup_insert_ne, lookup_insert_eq, H2 by done. eauto.
      * rewrite !lookup_insert_ne, lookup_insert_eq, H3 by done. eauto.
    + intros n Hn. unfold class_names, imports in Hn. simpl in Hn.
      rewrite !lookup_insert_ne, lookup_empty; set_solver.
    + intros n Hn. unfold metadata_names, metadata in Hn. simpl in Hn.
      repeat (apply elem_of_cons in Hn as [->|Hn]);
        [..|by apply elem_of_nil in Hn]; by rewrite !lookup_insert_ne.
Qed.










End Facade.

(** ** The model at work on the concrete process *)

Lemma demo_load :
  load_package (demo_collab None) demo_new_module demo_pkg demo_process
  = Done demo_loaded demo_after.
Proof. vm_compute. reflexivity. Qed.

Lemma demo_run_fails :
  run_body (demo_collab (Some "extended_interaction_analyzer"))
    demo_new_module demo_pkg demo_process
  = Raised (Exc "RuntimeError" "extended_interaction_analyzer") demo_failed.
Proof. vm_compute. reflexivity. Qed.

Lemma demo_import :
  import_package (demo_collab None) demo_new_module demo_pkg demo_process
  = Done demo_loaded demo_after.
Proof. vm_compute. reflexivity. Qed.



Local Ltac decide_now := apply (bool_decide_unpack _); vm_compute; exact I.

(** The two constants in the namespace the concrete load returns. *)
Lemma metadata_constants_literal_witness :
  load_package (demo_collab None) demo_new_module demo_pkg demo_process
    = Done demo_loaded demo_after ∧
  demo_loaded !! "__version__" = Some (VStr "1.0.0") ∧
  demo_loaded !! "__package_name__" = Some (VStr "BondForge").
Proof.
  assert (load_package (demo_collab None) demo_new_module demo_pkg demo_process
          = Done demo_loaded demo_after) as H by (vm_compute; reflexivity).
  destruct (metadata_constants_literal (demo_collab None) demo_new_module
              demo_pkg demo_process demo_loaded demo_after H)
    as (Hversion & Hname & _).
  exact (conj H (conj Hversion Hname)).
Defined.



(** The extended analyzer read from the root and from its submodule. *)
Lemma root_binding_is_submodule_binding_witness :
  load_package (demo_collab None) demo_new_module demo_pkg demo_process
    = Done demo_loaded demo_after ∧
  is_Some (demo_loaded !! "ExtendedProteinInteractionAnalyzer") ∧
  getattr demo_pkg "ExtendedProteinInteractionAnalyzer" demo_after
    = demo_loaded !! "ExtendedProteinInteractionAnalyzer" ∧
  getattr (demo_pkg ++ ["extended_interaction_analyzer"])
    "ExtendedProteinInteractionAnalyzer" demo_after
    = demo_loaded !! "ExtendedProteinInteractionAnalyzer".
Proof.
  assert (load_package (demo_collab None) demo_new_module demo_pkg demo_process
          = Done demo_loaded demo_after) as H by (vm_compute; reflexivity).
  split; [exact H|].
  apply (root_binding_is_submodule_binding (demo_collab None) demo_new_module
           demo_pkg demo_process demo_loaded demo_after H).
  decide_now.
Defined.







(** The star-export list of the concrete namespace. *)
Lemma all_is_the_three_classes_witness :
  load_package (demo_collab None) demo_new_module demo_pkg demo_process
    = Done demo_loaded demo_after ∧
  star_names demo_loaded = Some class_names ∧
  NoDup all_names.
Proof.
  assert (load_package (demo_collab None) demo_new_module demo_pkg demo_process
          = Done demo_loaded demo_after) as H by (vm_compute; reflexivity).
  destruct (all_is_the_three_classes (demo_collab None) demo_new_module
              demo_pkg demo_process demo_loaded demo_after H)
    as (_ & Hstar & Hnodup & _).
  exact (conj H (conj Hstar Hnodup)).
Defined.


(** ** Further properties of the load *)

Section Further.
Context {W : Type}.
Variable collab : qualname → W → option ((exn + namespace) * W).
Variable new_module : qualname → namespace.
Implicit Types (p : process W) (q pkg : qualname) (n c : string).



(** After a successful load each of the five metadata constants holds the
    string literal the source assigns to it, and [__doc__] the module
    docstring: no import rebinds them, whatever the collaborators are. *)
Theorem metadata_and_docstring pkg p ns p' :
  load_package collab new_module pkg p = Done ns p' →
  ns !! "__version__" = Some (VStr "1.0.0") ∧
  ns !! "__author__" = Some (VStr "Ayeh Bolouki") ∧
  ns !! "__email__" = Some (VStr "ayehbolouki1988@gmail.com") ∧
  ns !! "__package_name__" = Some (VStr "BondForge") ∧
  ns !! "__tagline__" = Some (VStr "Forging Insights from Chemical Bonds") ∧
  ns !! "__doc__" = Some (VStr docstring).
Proof.
  intros [Hrun Hns]%load_package_done.
  assert (final (run_body collab new_module pkg p) = Some p') as Hfin
    by (by rewrite Hrun).
  pose proof (metadata_bound collab new_module pkg p p' Hfin) as Hmeta.
  rewrite <- !(getattr_lookup pkg _ p' ns Hns).
  split_and!; [apply Hmeta; decide_now..|].
  by apply (doc_bound collab new_module pkg p).
Qed.

(** After a successful load the three collaborators are in
    [sys.modules]: importing any of them again returns the cached module
    without running its body, and leaves the process as it is. *)
Theorem submodule_import_after_load pkg p ns p' :
  load_package collab new_module pkg p = Done ns p' →
  ∀ c, c ∈ submodule_names →
    ∃ m, sys_modules p' !! (pkg ++ [c]) = Some m ∧
         find_and_load collab pkg c p' = Done m p'.
Proof.
  intros [Hrun _]%load_package_done c Hc.
  apply list_elem_of_fmap in Hc as ([c' n] & -> & Hin). simpl.
  destruct (classes_bound collab new_module pkg p p' Hrun c' n Hin)
    as [[v Hv] Heq].
  rewrite Heq in Hv. unfold getattr in Hv.
  destruct (sys_modules p' !! (pkg ++ [c'])) as [m|] eqn:Hm; [|done].
  exists m. split; [done|]. unfold find_and_load. by rewrite Hm.
Qed.

(** A star import after a successful load brings in exactly the three
    class names, each bound to the object its defining submodule holds. *)
Theorem star_import_objects pkg p ns p' :
  load_package collab new_module pkg p = Done ns p' →
  ∃ star, star_import ns = Some star ∧
    dom star = list_to_set class_names ∧
    ∀ c n, (c, n) ∈ imports →
      is_Some (star !! n) ∧ star !! n = getattr (pkg ++ [c]) n p'.
Proof.
  intros [Hrun Hns]%load_package_done.
  pose proof (all_bound collab new_module pkg p p' Hrun) as Hall.
  rewrite (getattr_lookup pkg _ p' ns Hns) in Hall.
  pose proof (classes_bound collab new_module pkg p p' Hrun) as Hcls.
  destruct (Hcls "interaction_analyzer" "ProteinInteractionAnalyzer")
    as [[v1 H1] E1]; [decide_now|].
  destruct (Hcls "extended_interaction_analyzer" "ExtendedProteinInteractionAnalyzer")
    as [[v2 H2] E2]; [decide_now|].
  destruct (Hcls "interaction_visualizer" "InteractionVisualizer")
    as [[v3 H3] E3]; [decide_now|].
  rewrite (getattr_lookup pkg _ p' ns Hns) in H1, E1.
  rewrite (getattr_lookup pkg _ p' ns Hns) in H2, E2.
  rewrite (getattr_lookup pkg _ p' ns Hns) in H3, E3.
  unfold star_import, star_names. rewrite Hall. simpl.
  rewrite H1, H2, H3. simpl. eexists. split; [reflexivity|]. split.
  - rewrite !dom_insert_L, dom_empty_L. set_solver.
  - intros c n Hin. unfold imports in Hin.
    repeat (apply elem_of_cons in Hin as [[= -> ->]|Hin]);
      [..|by apply elem_of_nil in Hin].
    + rewrite <- E1, lookup_insert_eq, H1. eauto.
    + rewrite <- E2, lookup_insert_ne, lookup_insert_eq, H2 by done. eauto.
    + rewrite <- E3, !lookup_insert_ne, lookup_insert_eq, H3 by done. eauto.
Qed.

End Further.

Local Ltac decide_here := apply (bool_decide_unpack _); vm_compute; exact I.



(** The author, the contact and the docstring of the concrete namespace. *)
Lemma metadata_and_docstring_witness :
  load_package (demo_collab None) demo_new_module demo_pkg demo_process
    = Done demo_loaded demo_after ∧
  demo_loaded !! "__author__" = Some (VStr "Ayeh Bolouki") ∧
  demo_loaded !! "__email__" = Some (VStr "ayehbolouki1988@gmail.com") ∧
  demo_loaded !! "__doc__" = Some (VStr docstring).
Proof.
  assert (load_package (demo_collab None) demo_new_module demo_pkg demo_process
          = Done demo_loaded demo_after) as H by (vm_compute; reflexivity).
  destruct (metadata_and_docstring (demo_collab None) demo_new_module
              demo_pkg demo_process demo_loaded demo_after H)
    as (_ & Hauthor & Hemail & _ & _ & Hdoc).
  exact (conj H (conj Hauthor (conj Hemail Hdoc))).
Defined.

(** Importing the visualizer after the concrete load. *)
Lemma submodule_import_after_load_witness :
  load_package (demo_collab None) demo_new_module demo_pkg demo_process
    = Done demo_loaded demo_after ∧
  ∃ m, sys_modules demo_after !! (demo_pkg ++ ["interaction_visualizer"]) = Some m ∧
       find_and_load (demo_collab None) demo_pkg "interaction_visualizer" demo_after
       = Done m demo_after.
Proof.
  assert (load_package (demo_collab None) demo_new_module demo_pkg demo_process
          = Done demo_loaded demo_after) as H by (vm_compute; reflexivity).
  split; [exact H|].
  apply (submodule_import_after_load (demo_collab None) demo_new_module
           demo_pkg demo_process demo_loaded demo_after H).
  decide_here.
Defined.

(** The star import of the concrete namespace. *)
Lemma star_import_objects_witness :
  load_package (demo_collab None) demo_new_module demo_pkg demo_process
    = Done demo_loaded demo_after ∧
  ∃ star, star_import demo_loaded = Some star ∧
    dom star = list_to_set class_names ∧
    ∀ c n, (c, n) ∈ imports →
      is_Some (star !! n) ∧ star !! n = getattr (demo_pkg ++ [c]) n demo_after.
Proof.
  assert (load_package (demo_collab None) demo_new_module demo_pkg demo_process
          = Done demo_loaded demo_after) as H by (vm_compute; reflexivity).
  exact (conj H (star_import_objects (demo_collab None) demo_new_module
                   demo_pkg demo_process demo_loaded demo_after H)).
Defined.

End BondForge.
